(** * socketServer: the client registry and the per-connection session

    A shallow embedding of [socketServer/main.go].  The server keeps a map
    from connections to clients, guarded by a reader/writer mutex; every
    accepted connection is served by [handleClient].  The development
    models one call at a time (each registry method runs under the mutex,
    so its body is atomic); a session is run against the registry without
    interleaving of other sessions.

    What the Go runtime and the environment decide is collected in the
    record [Runtime]: the order in which a [range] loop enumerates the map,
    whether a write on a connection fails, the wall clock, and the library
    function [strings.TrimSpace]. *)

From Stdlib Require Import String Ascii.
From stdpp Require Import gmap strings list fin_maps pretty.

Local Open Scope string_scope.
Local Open Scope list_scope.

(** ** Data model *)

(** [net.Conn]: connections are compared by identity only. *)
Abbreviation Conn := nat (only parsing).

(** [type Client struct { conn; nickname; server }].  The [server] field is
    a back pointer that no method reads.  A client's [nickname] is assigned
    before the client is registered and never afterwards, so the pointers
    stored in the map are modelled by the records they point to. *)
Record Client := mkClient { conn : Conn; nickname : string }.

#[global] Instance Client_eq_dec : EqDecision Client.
Proof. solve_decision. Defined.

(** What a call does to the outside world, in order. *)
Inductive Event :=
  | ConnWrite (c : Conn) (data : string)  (* c.Write([]byte(data)) *)
  | Stdout (text : string)                (* fmt.Printf(...) *)
  | GoClose (c : Conn)                    (* go func() { conn.Close() }() *)
  | ConnClose (c : Conn).                 (* the deferred conn.Close() *)

#[global] Instance Event_eq_dec : EqDecision Event.
Proof. solve_decision. Defined.

(** [Server.clients], the number of [range] loops started so far, and the
    events produced so far (oldest first). *)
Record World := mkWorld {
  clients : gmap nat Client;
  ranges : nat;
  trace : list Event
}.

(** Choices made outside the program. *)
Record Runtime := mkRuntime {
  (* strings.TrimSpace *)
  TrimSpace : string → string;
  (* the order in which the n-th range loop visits the entries of the map *)
  range_order : nat → list (nat * Client) → list (nat * Client);
  (* the error, if any, of a Write issued after n events on a connection *)
  write_error : nat → nat → option string;
  (* time.Now().Format("15:04:05") after n events *)
  clock : nat → string;
  (* conn.RemoteAddr(), printed *)
  RemoteAddr : nat → string
}.

(** A [range] over a map visits every entry exactly once, in an order the
    language leaves unspecified. *)
Definition range_valid (rt : Runtime) : Prop :=
  ∀ n l, range_order rt n l ≡ₚ l.

(** ** The state monad of a call *)

Definition M (A : Type) : Type := World → A * World.

#[global] Instance M_ret : MRet M := λ A a w, (a, w).
#[global] Instance M_bind : MBind M := λ A B f m w, let (a, w') := m w in f a w'.

Definition emit (e : Event) : M () :=
  λ w, ((), mkWorld (clients w) (ranges w) (trace w ++ [e])).

Definition get_clients : M (gmap nat Client) := λ w, (clients w, w).

Definition set_clients (m : gmap nat Client) : M () :=
  λ w, ((), mkWorld m (ranges w) (trace w)).

(** ** Library functions *)

(** The line feed that ends every line on the wire. *)
Definition LF : string := String "010"%char EmptyString.

(** [strings.HasPrefix(s, prefix)]. *)
Fixpoint HasPrefix (s prefix : string) : bool :=
  match prefix with
  | EmptyString => true
  | String p prefix' =>
      match s with
      | EmptyString => false
      | String a s' => Ascii.eqb a p && HasPrefix s' prefix'
      end
  end.

(** [strings.SplitN(s, sep, n)] for a one-byte separator and [n >= 0]: at
    most [n] pieces, the last one the unsplit remainder. *)
Fixpoint SplitN (s : string) (sep : ascii) (n : nat) {struct s} : list string :=
  match n with
  | 0 => []
  | 1 => [s]
  | S n' =>
      match s with
      | EmptyString => [EmptyString]
      | String a s' =>
          if Ascii.eqb a sep then EmptyString :: SplitN s' sep n'
          else match SplitN s' sep n with
               | h :: t => String a h :: t
               | [] => []
               end
      end
  end.

(** [fmt.Sprintf("%d", n)] for a length. *)
Definition Itoa (n : nat) : string := pretty n.

(** The six ASCII bytes [strings.TrimSpace] removes; on strings of ASCII
    bytes [TrimSpace_ascii] is [strings.TrimSpace]. *)
Definition asciiSpace (a : ascii) : bool :=
  let n := nat_of_ascii a in
  ((n =? 9) || (n =? 10) || (n =? 11) || (n =? 12) || (n =? 13) || (n =? 32))%nat.

Fixpoint trim_left (s : string) : string :=
  match s with
  | String a s' => if asciiSpace a then trim_left s' else s
  | EmptyString => EmptyString
  end.

Fixpoint trim_right (s : string) : string :=
  match s with
  | String a s' =>
      match trim_right s' with
      | EmptyString => if asciiSpace a then EmptyString else String a EmptyString
      | t => String a t
      end
  | EmptyString => EmptyString
  end.

Definition TrimSpace_ascii (s : string) : string := trim_right (trim_left s).

(** ** The server *)

Section Server.
Context (rt : Runtime).

(** [for conn, client := range s.clients]: the entries in the order the
    runtime picks for this loop. *)
Definition range : M (list (nat * Client)) :=
  λ w, (range_order rt (ranges w) (map_to_list (clients w)),
        mkWorld (clients w) (S (ranges w)) (trace w)).

(** The events of one [send] issued after [n] events: the write, and the
    log line when the write fails. *)
Definition send_events (n : nat) (c : Client) (message : string) : list Event :=
  ConnWrite (conn c) (message +:+ LF) ::
  match write_error rt n (conn c) with
  | Some e => [Stdout ("Error sending message to " +:+ nickname c +:+ ": " +:+ e +:+ LF)]
  | None => []
  end.

(** [func (c *Client) send(message string)] *)
Definition send (c : Client) (message : string) : M () :=
  λ w, ((), mkWorld (clients w) (ranges w)
                    (trace w ++ send_events (length (trace w)) c message)).

(** [func (s *Server) addClient(client *Client)] *)
Definition addClient (client : Client) : M () :=
  m ← get_clients; set_clients (<[conn client := client]> m).

(** [func (s *Server) removeClient(client *Client)] *)
Definition removeClient (client : Client) : M () :=
  m ← get_clients; set_clients (delete (conn client) m).

(** The loop of [kickClient], over the entries still to be visited. *)
Fixpoint kickClient_loop (target : string) (it : list (nat * Client)) : M bool :=
  match it with
  | [] => mret false
  | (c, client) :: rest =>
      if decide (nickname client = target) then
        send client "You have been kicked!";;
        m ← get_clients; set_clients (delete c m);;
        emit (GoClose c);;
        mret true
      else kickClient_loop target rest
  end.

(** [func (s *Server) kickClient(nickname string) bool] *)
Definition kickClient (target : string) : M bool :=
  it ← range; kickClient_loop target it.

(** [sender != nil && conn == sender.conn] *)
Definition is_sender (sender : option Client) (c : Conn) : bool :=
  match sender with
  | Some sd => bool_decide (c = conn sd)
  | None => false
  end.

(** The loop of [broadcast]. *)
Fixpoint broadcast_loop (message : string) (sender : option Client)
    (it : list (nat * Client)) : M () :=
  match it with
  | [] => mret ()
  | (c, client) :: rest =>
      if is_sender sender c then broadcast_loop message sender rest
      else send client message;; broadcast_loop message sender rest
  end.

(** [func (s *Server) broadcast(message string, sender *Client)];
    [sender] is [None] for Go's [nil]. *)
Definition broadcast (message : string) (sender : option Client) : M () :=
  it ← range; broadcast_loop message sender it.

(** [result += fmt.Sprintf("\n- %s", client.nickname)] over the entries. *)
Definition roster_lines (result : string) (it : list (nat * Client)) : string :=
  foldl (λ r e, r +:+ (LF +:+ "- " +:+ nickname e.2)) result it.

(** [func (s *Server) getClientList() string] *)
Definition getClientList : M string :=
  m ← get_clients;
  if decide (size m = 0) then mret "No clients connected"
  else
    let result := "Connected clients (" +:+ Itoa (size m) +:+ "):" in
    it ← range; mret (roster_lines result it).

(** [func (s *Server) handleKickClient(message string, sender *Client)] *)
Definition handleKickClient (message : string) (sender : Client) : M () :=
  match SplitN message " " 2 with
  | [_; targetNickname] =>
      kicked ← kickClient targetNickname;
      if kicked : bool then
        send sender ("You have kicked " +:+ targetNickname);;
        broadcast (targetNickname +:+ " was kicked by " +:+ nickname sender) None
      else mret ()
  | _ => send sender "Usage: /kick <nickname>"
  end.

(** One command of the session loop of [handleClient], for a trimmed,
    non-empty [message] that is not [/quit]. *)
Definition dispatch (client : Client) (message : string) : M () :=
  if HasPrefix message "/list" then
    l ← getClientList; send client l
  else if HasPrefix message "/time" then
    λ w, send client ("Server time: " +:+ clock rt (length (trace w))) w
  else if HasPrefix message "/kick" then
    handleKickClient message client
  else
    broadcast ("[" +:+ nickname client +:+ "]: " +:+ message) (Some client).

(** [for scanner.Scan() { ... }] over the lines the scanner still
    delivers; the scanner reports end of input when they run out. *)
Fixpoint session_loop (client : Client) (lines : list string) : M () :=
  match lines with
  | [] => mret ()
  | line :: rest =>
      let message := TrimSpace rt line in
      if decide (message = "") then session_loop client rest
      else if HasPrefix message "/quit" then mret ()
      else dispatch client message;; session_loop client rest
  end.

(** [if scanner.Scan() { client.nickname = ... }]: the client after the
    nickname step, and the lines left for the loop. *)
Definition read_nickname (c : Conn) (lines : list string) : Client * list string :=
  match lines with
  | line :: rest =>
      let name := TrimSpace rt line in
      (mkClient c (if decide (name = "") then "Anonymous" else name), rest)
  | [] => (mkClient c "", [])
  end.

(** [handleClient] up to the session loop: greeting, nickname,
    registration, join notice. *)
Definition handshake (c : Conn) (lines : list string) : M (Client * list string) :=
  let client0 := mkClient c "" in
  send client0 "Welcome to the Go Socket Server!";;
  send client0 "Please enter your nickname:";;
  let client := (read_nickname c lines).1 in
  addClient client;;
  broadcast (nickname client +:+ " joined the chat") (Some client);;
  emit (Stdout ("Client " +:+ nickname client +:+ " connected from "
                +:+ RemoteAddr rt c +:+ LF));;
  mret (read_nickname c lines).

(** [handleClient] after the session loop: removal, leave notice, and the
    deferred close. *)
Definition disconnect (client : Client) : M () :=
  removeClient client;;
  broadcast (nickname client +:+ " left the chat") None;;
  emit (Stdout ("Client " +:+ nickname client +:+ " disconnected" +:+ LF));;
  emit (ConnClose (conn client)).

(** [func (s *Server) handleClient(conn net.Conn)], on the lines its
    scanner delivers before it reports end of input. *)
Definition handleClient (c : Conn) (lines : list string) : M () :=
  joined ← handshake c lines;
  session_loop joined.1 joined.2;;
  disconnect joined.1.

End Server.

Arguments send_events : simpl never.

(** [NewServer]: an empty registry; nothing has happened yet. *)
Definition NewServer : World := mkWorld ∅ 0 [].

(** ** Observations *)

Definition eval {A} (m : M A) (w : World) : A := (m w).1.
Definition exec {A} (m : M A) (w : World) : World := (m w).2.

(** The lines written to connection [c], in order. *)
Fixpoint sent_to (c : Conn) (tr : list Event) : list string :=
  match tr with
  | [] => []
  | ConnWrite c' data :: tr' =>
      if decide (c' = c) then data :: sent_to c tr' else sent_to c tr'
  | _ :: tr' => sent_to c tr'
  end.

(** The connections closed or handed to a closing goroutine, in order. *)
Fixpoint closes (tr : list Event) : list Event :=
  match tr with
  | [] => []
  | GoClose c :: tr' => GoClose c :: closes tr'
  | ConnClose c :: tr' => ConnClose c :: closes tr'
  | _ :: tr' => closes tr'
  end.

(** The clients [broadcast_loop] writes to, in order. *)
Definition recipients (sender : option Client) (it : list (nat * Client))
    : list Client :=
  (filter (λ e, is_sender sender e.1 = false) it).*2.

(** What those writes put on connection [k]. *)
Definition deliveries (message : string) (k : Conn) (cls : list Client)
    : list string :=
  flat_map (λ cl, if decide (conn cl = k) then [message +:+ LF] else []) cls.

(** Every entry is stored under its own connection: [addClient] is the
    only insertion and uses [client.conn] as the key. *)
Definition registry_wf (m : gmap nat Client) : Prop :=
  ∀ k cl, m !! k = Some cl → conn cl = k.

(** A runtime that visits a map in the order of [map_to_list], never fails
    a write, and trims ASCII space. *)
Definition rt0 : Runtime :=
  mkRuntime TrimSpace_ascii (λ _ l, l) (λ _ _, None) (λ _, "12:00:00") (λ _, "peer").


(** Example clients and registries. *)
Definition alice1 : Client := mkClient 1 "Alice".
Definition bob1 : Client := mkClient 1 "Bob".
Definition bob2 : Client := mkClient 2 "Bob".
Definition carol3 : Client := mkClient 3 "Carol".

(** Alice alone, registered through [addClient]. *)
Definition w_alice : World := exec (addClient alice1) NewServer.

(** Alice and Bob. *)
Definition w_alice_bob : World := exec (addClient bob2) w_alice.

(** The entry [kickClient] stops at: the first one, in visiting order,
    whose nickname is the target. *)
Fixpoint first_named (target : string) (it : list (nat * Client))
    : option (nat * Client) :=
  match it with
  | [] => None
  | (c, cl) :: rest =>
      if decide (nickname cl = target) then Some (c, cl)
      else first_named target rest
  end.

(** The target [handleKickClient] reads off a line, if any. *)
Definition kick_target (message : string) : option string :=
  match SplitN message " " 2 with
  | [_; targetNickname] => Some targetNickname
  | _ => None
  end.

Fixpoint has_space (s : string) : bool :=
  match s with
  | EmptyString => false
  | String a s' => Ascii.eqb a " " || has_space s'
  end.

(** The target as the specification words it: after the command word, the
    first run of whitespace is skipped and what follows is the argument;
    it is missing when nothing follows. *)
Fixpoint skip_word (s : string) : string :=
  match s with
  | String a s' => if asciiSpace a then s else skip_word s'
  | EmptyString => EmptyString
  end.

Definition spec_kick_target (message : string) : option string :=
  match trim_left (skip_word message) with
  | EmptyString => None
  | t => Some t
  end.

(** [/kick], a tab, [Bob]. *)
Definition kick_tab_Bob : string := "/kick" +:+ String "009"%char "Bob".

(** The roster as a header followed by one line per visited entry. *)
Definition join (ls : list string) : string := foldr String.app "" ls.

Definition roster_line (cl : Client) : string := LF +:+ "- " +:+ nickname cl.

(** Two clients named Bob. *)
Definition w_bobs : World := exec (addClient bob2) (exec (addClient bob1) NewServer).



(** ** The accept loop and the program entry *)

(** What [Start] and [main] do, in order. *)
Inductive StartEvent :=
  | Printed (text : string)        (* fmt.Printf / fmt.Println *)
  | GoHandleClient (c : Conn)      (* go s.handleClient(conn) *)
  | ListenerClose.                 (* the deferred listener.Close() *)

(** One turn of [for { conn, err := listener.Accept() ... }]: a failed
    accept is logged and the loop goes on, an accepted connection is
    handed to a goroutine. *)
Definition accept_turn (a : string + Conn) : list StartEvent :=
  match a with
  | inl err => [Printed ("Failed to accept connection: " +:+ err +:+ LF)]
  | inr c => [GoHandleClient c]
  end.

(** [func (s *Server) Start() error], for the outcome of [net.Listen]
    ([Some err] when it fails) and the outcomes of the calls of [Accept]
    made so far.  The result is [Some] of the returned error, or [None]
    while the loop is running: the loop has no exit. *)
Definition Start (address : string) (listen : option string)
    (accepts : list (string + Conn)) : option string * list StartEvent :=
  match listen with
  | Some err => (Some ("failed to start server: " +:+ err), [])
  | None =>
      (None,
       Printed ("Socket server started on " +:+ address +:+ LF)
       :: flat_map accept_turn accepts)
  end.

(** [func main()] of the server, on the same outcomes. *)
Definition server_main (listen : option string) (accepts : list (string + Conn))
    : list StartEvent :=
  let started := Start ":8080" listen accepts in
  Printed ("Starting Go Socket Server..." +:+ LF)
  :: started.2
  ++ match started.1 with
     | Some err => [Printed ("Server error: " +:+ err +:+ LF)]
     | None => []
     end.

(** The connections handed to a handler goroutine, in order. *)
Definition handled (tr : list StartEvent) : list Conn :=
  omap (λ e, match e with GoHandleClient c => Some c | _ => None end) tr.

(** The connections [Accept] returned, in order. *)
Definition accepted (accepts : list (string + Conn)) : list Conn :=
  omap (λ a, match a with inr c => Some c | inl _ => None end) accepts.

(** ** The client program *)

(** What the client's [main] does on its own thread, in order.  The lines
    the reader goroutine prints are interleaved with these by the
    scheduler; only its start is recorded. *)
Inductive ClientEvent :=
  | CPrint (text : string)   (* fmt.Println / fmt.Printf *)
  | CGoReader                (* go func() { ... fmt.Println(scanner.Text()) ... }() *)
  | CWrite (data : string)   (* conn.Write([]byte(data)) *)
  | CClose.                  (* the deferred conn.Close() *)

Section Client.
(* strings.TrimSpace *)
Context (trim : string → string).
(* the error, if any, of the n-th write on the connection (from 0) *)
Context (werr : nat → option string).

(** [for scanner.Scan() { ... }] over the lines typed on standard input,
    after [n] writes. *)
Fixpoint client_loop (n : nat) (lines : list string) : list ClientEvent :=
  match lines with
  | [] => []
  | line :: rest =>
      let message := trim line in
      if decide (message = "") then client_loop n rest
      else
        CWrite (message +:+ LF) ::
        match werr n with
        | Some err => [CPrint ("Error sending message: " +:+ err +:+ LF)]
        | None =>
            if decide (message = "/quit") then [] else client_loop (S n) rest
        end
  end.

(** The client's [func main()], for the outcome of [net.Dial] ([Some err]
    when it fails) and the lines typed on standard input. *)
Definition client_main (dial : option string) (lines : list string)
    : list ClientEvent :=
  match dial with
  | Some err => [CPrint ("Failed to connect to server: " +:+ err +:+ LF)]
  | None =>
      [CPrint ("Connected to server!" +:+ LF);
       CPrint ("Commands: /quit (exit), /list (show users), /time (server time)" +:+ LF);
       CPrint ("Just type messages to chat with others" +:+ LF);
       CGoReader]
      ++ client_loop 0 lines
      ++ [CPrint ("Disconnected from server" +:+ LF); CClose]
  end.

End Client.

(** The data written to the server, in order. *)
Definition written (tr : list ClientEvent) : list string :=
  omap (λ e, match e with CWrite d => Some d | _ => None end) tr.

(** The messages up to and including the first that is exactly [/quit]. *)
Fixpoint upto_quit (ms : list string) : list string :=
  match ms with
  | [] => []
  | m :: rest => m :: if decide (m = "/quit") then [] else upto_quit rest
  end.

(** The non-empty trimmed lines. *)
Definition messages (trim : string → string) (lines : list string) : list string :=
  filter (λ m, m ≠ "") (trim <$> lines).

(** ** More observations on sessions *)

(** An event that hands a connection to a closing goroutine. *)
Definition is_GoClose (e : Event) : Prop := ∃ v, e = GoClose v.

(** A line the session loop treats as a command. *)
Definition is_command (message : string) : bool :=
  HasPrefix message "/quit" || HasPrefix message "/list"
  || HasPrefix message "/time" || HasPrefix message "/kick".

(** Nobody registered carries the nickname. *)
Definition unnamed (m : gmap nat Client) (N : string) : Prop :=
  ∀ k cl, m !! k = Some cl → nickname cl ≠ N.

(** ** Traces and single steps *)

Lemma sent_to_app k tr1 tr2 :
  sent_to k (tr1 ++ tr2) = sent_to k tr1 ++ sent_to k tr2.
Proof.
  induction tr1 as [|e tr1 IH]; [done|].
  destruct e; simpl; try done.
  case_decide; simpl; by rewrite IH.
Qed.

Lemma closes_app tr1 tr2 : closes (tr1 ++ tr2) = closes tr1 ++ closes tr2.
Proof.
  induction tr1 as [|e tr1 IH]; [done|].
  destruct e; simpl; by rewrite ?IH.
Qed.

Lemma sent_to_send_events rt k n c msg :
  sent_to k (send_events rt n c msg)
  = if decide (conn c = k) then [msg +:+ LF] else [].
Proof.
  unfold send_events. simpl.
  destruct (write_error rt n (conn c)); case_decide; done.
Qed.

Lemma closes_send_events rt n c msg : closes (send_events rt n c msg) = [].
Proof. unfold send_events. simpl. by destruct (write_error rt n (conn c)). Qed.

Lemma broadcast_loop_run rt msg sender it w :
  ∃ evs,
    broadcast_loop rt msg sender it w
    = ((), mkWorld (clients w) (ranges w) (trace w ++ evs))
    ∧ closes evs = []
    ∧ ∀ k, sent_to k evs = deliveries msg k (recipients sender it).
Proof.
  revert w. induction it as [|[c cl] it IH]; intros w.
  - exists []. simpl. rewrite app_nil_r. by destruct w.
  - simpl. unfold recipients. rewrite filter_cons. simpl.
    destruct (is_sender sender c) eqn:Hs.
    + rewrite decide_False by done. apply IH.
    + rewrite decide_True by done.
      unfold mbind, M_bind. simpl.
      destruct (IH (mkWorld (clients w) (ranges w)
                      (trace w ++ send_events rt (length (trace w)) cl msg)))
        as (evs & Hrun & Hcl & Hsent).
      exists (send_events rt (length (trace w)) cl msg ++ evs).
      rewrite Hrun. cbn [clients ranges trace]. rewrite <- app_assoc.
      split; [done|]. split.
      * by rewrite closes_app, closes_send_events, Hcl.
      * intros k. rewrite sent_to_app, sent_to_send_events, Hsent.
        unfold deliveries. cbn [fmap list_fmap flat_map snd]. by case_decide.
Qed.

(** Each registered connection is visited once, and written to unless it
    is the excluded sender. *)
Lemma deliveries_NoDup msg sender (it : list (nat * Client)) k :
  NoDup it.*1 →
  (∀ c cl, (c, cl) ∈ it → conn cl = c) →
  deliveries msg k (recipients sender it)
  = if bool_decide (k ∈ it.*1) && negb (is_sender sender k)
    then [msg +:+ LF] else [].
Proof.
  intros Hnd Hwf. induction it as [|[c cl] it IH]; [done|].
  rewrite fmap_cons in Hnd. apply NoDup_cons in Hnd as [Hc Hnd].
  assert (conn cl = c) as Hcl by (apply Hwf; left).
  specialize (IH Hnd (λ c' cl' H, Hwf c' cl' (list_elem_of_further _ _ _ H))).
  unfold recipients in *. rewrite filter_cons, fmap_cons. cbn [fst] in *.
  destruct (decide (k = c)) as [->|Hne].
  - rewrite (bool_decide_eq_true_2 (c ∈ c :: it.*1)) by left.
    rewrite (bool_decide_eq_false_2 (c ∈ it.*1)) in IH by done.
    cbn [andb] in *.
    destruct (is_sender sender c) eqn:Hs; cbn [negb].
    + by rewrite decide_False.
    + rewrite decide_True by done. unfold deliveries in *.
      rewrite fmap_cons. cbn [flat_map snd].
      rewrite decide_True by done. rewrite IH. reflexivity.
  - assert (bool_decide (k ∈ c :: it.*1) = bool_decide (k ∈ it.*1)) as ->.
    { apply bool_decide_ext. rewrite elem_of_cons. intuition. }
    rewrite <- IH. destruct (decide (is_sender sender c = false)); [|done].
    unfold deliveries. rewrite fmap_cons. cbn [flat_map snd].
    rewrite decide_False by congruence. done.
Qed.

Lemma range_order_keys rt n (m : gmap nat Client) :
  range_valid rt →
  let it := range_order rt n (map_to_list m) in
  NoDup it.*1
  ∧ (∀ c cl, (c, cl) ∈ it ↔ m !! c = Some cl)
  ∧ (∀ k, k ∈ it.*1 ↔ is_Some (m !! k)).
Proof.
  intros Hv it. pose proof (Hv n (map_to_list m)) as Hp. fold it in Hp.
  split; [|split].
  - rewrite Hp. apply NoDup_fst_map_to_list.
  - intros c cl. rewrite Hp. apply elem_of_map_to_list.
  - intros k. rewrite Hp, list_elem_of_fmap. split.
    + intros ([c cl] & -> & H). apply elem_of_map_to_list in H. eauto.
    + intros [cl H]. exists (k, cl). split; [done|]. by apply elem_of_map_to_list.
Qed.

Lemma broadcast_run rt msg sender w :
  range_valid rt → registry_wf (clients w) →
  ∃ evs,
    broadcast rt msg sender w
    = ((), mkWorld (clients w) (S (ranges w)) (trace w ++ evs))
    ∧ closes evs = []
    ∧ ∀ k, sent_to k evs
           = if bool_decide (is_Some (clients w !! k)) && negb (is_sender sender k)
             then [msg +:+ LF] else [].
Proof.
  intros Hv Hwf. unfold broadcast, mbind, M_bind, range.
  set (it := range_order rt (ranges w) (map_to_list (clients w))).
  destruct (range_order_keys rt (ranges w) (clients w) Hv) as (Hnd & Hin & Hkeys).
  fold it in Hnd, Hin, Hkeys.
  destruct (broadcast_loop_run rt msg sender it
              (mkWorld (clients w) (S (ranges w)) (trace w)))
    as (evs & Hrun & Hcl & Hsent).
  exists evs. split; [exact Hrun|]. split; [done|].
  intros k. rewrite Hsent, (deliveries_NoDup msg sender it k Hnd).
  - by rewrite (bool_decide_ext _ _ (Hkeys k)).
  - intros c cl H. apply Hin in H. by apply Hwf.
Qed.

(** ** The registry: add and remove *)

Lemma addClient_run p w :
  addClient p w = ((), mkWorld (<[conn p := p]> (clients w)) (ranges w) (trace w)).
Proof. done. Qed.

Lemma removeClient_run p w :
  removeClient p w = ((), mkWorld (delete (conn p) (clients w)) (ranges w) (trace w)).
Proof. done. Qed.

Lemma registry_wf_insert m p : registry_wf m → registry_wf (<[conn p := p]> m).
Proof.
  intros Hwf k cl. rewrite lookup_insert. case_decide; [|by apply Hwf].
  by intros [= <-].
Qed.

Lemma registry_wf_delete m k : registry_wf m → registry_wf (delete k m).
Proof.
  intros Hwf k' cl. rewrite lookup_delete. case_decide; [done|]. apply Hwf.
Qed.

(** ** The example runtimes and registries *)

Lemma range_valid_rt0 : range_valid rt0.
Proof. by intros n l. Qed.


Lemma registry_wf_alice_bob : registry_wf (clients w_alice_bob).
Proof.
  apply (registry_wf_insert _ bob2), (registry_wf_insert _ alice1).
  by intros k cl H.
Qed.

(** ** Broadcast *)

(** C5.  [broadcast] writes the message once to every registered
    connection other than the excluded sender's, never to the sender's, and
    to no unregistered connection; with no sender excluded every
    registered connection is written to.  A failing write only adds a log
    line, so it does not stop the writes to the rest.  The registry is left
    as it was. *)
Theorem broadcast_reaches_all_but_sender
    (rt : Runtime) (msg : string) (sender : option Client) (w : World) :
  range_valid rt → registry_wf (clients w) →
  ∃ evs,
    broadcast rt msg sender w
    = ((), mkWorld (clients w) (S (ranges w)) (trace w ++ evs))
    ∧ (∀ sd, sender = Some sd → sent_to (conn sd) evs = [])
    ∧ (∀ k, is_Some (clients w !! k) →
            (∀ sd, sender = Some sd → k ≠ conn sd) →
            sent_to k evs = [msg +:+ LF])
    ∧ (sender = None →
       ∀ k, is_Some (clients w !! k) → sent_to k evs = [msg +:+ LF])
    ∧ (∀ k, clients w !! k = None → sent_to k evs = []).
Proof.
  intros Hv Hwf.
  destruct (broadcast_run rt msg sender w Hv Hwf) as (evs & Hrun & _ & Hsent).
  exists evs. split; [done|].
  assert (∀ k, is_Some (clients w !! k) →
            (∀ sd, sender = Some sd → k ≠ conn sd) →
            sent_to k evs = [msg +:+ LF]) as Hothers.
  { intros k Hk Hne. rewrite Hsent, bool_decide_eq_true_2 by done.
    destruct sender as [sd|]; [|done]. simpl.
    by rewrite bool_decide_eq_false_2 by (by apply Hne). }
  repeat split.
  - intros sd ->. rewrite Hsent. simpl.
    rewrite (bool_decide_eq_true_2 (conn sd = conn sd)) by done.
    by rewrite andb_false_r.
  - done.
  - intros -> k Hk. by apply Hothers.
  - intros k Hk. rewrite Hsent, bool_decide_eq_false_2; [done|].
    rewrite Hk. by intros [? ?].
Qed.

(** Alice says hello to a registry of Alice and Bob. *)
Lemma broadcast_reaches_all_but_sender_witness :
  range_valid rt0 ∧ registry_wf (clients w_alice_bob)
  ∧ ∃ evs,
      broadcast rt0 "hello" (Some alice1) w_alice_bob
      = ((), mkWorld (clients w_alice_bob) (S (ranges w_alice_bob))
               (trace w_alice_bob ++ evs))
      ∧ (∀ sd, Some alice1 = Some sd → sent_to (conn sd) evs = [])
      ∧ (∀ k, is_Some (clients w_alice_bob !! k) →
              (∀ sd, Some alice1 = Some sd → k ≠ conn sd) →
              sent_to k evs = ["hello" +:+ LF])
      ∧ (Some alice1 = None →
         ∀ k, is_Some (clients w_alice_bob !! k) → sent_to k evs = ["hello" +:+ LF])
      ∧ (∀ k, clients w_alice_bob !! k = None → sent_to k evs = []).
Proof.
  split; [exact range_valid_rt0|]. split; [exact registry_wf_alice_bob|].
  exact (broadcast_reaches_all_but_sender rt0 "hello" (Some alice1) w_alice_bob
           range_valid_rt0 registry_wf_alice_bob).
Defined.

(** ** Kicking *)

Lemma first_named_Some target it v cv :
  first_named target it = Some (v, cv) → (v, cv) ∈ it ∧ nickname cv = target.
Proof.
  induction it as [|[c cl] it IH]; [done|]. simpl.
  case_decide.
  - intros [= -> ->]. split; [left|done].
  - intros H'. destruct (IH H') as [? ?]. split; [by right|done].
Qed.

Lemma first_named_None target it c cl :
  first_named target it = None → (c, cl) ∈ it → nickname cl ≠ target.
Proof.
  induction it as [|[c' cl'] it IH]; [by intros _ ?%elem_of_nil|]. simpl.
  case_decide; [done|].
  intros H' [[= -> ->]|Hin]%elem_of_cons; [done|]. by apply IH.
Qed.

Lemma kickClient_loop_run rt target it w :
  kickClient_loop rt target it w
  = match first_named target it with
    | Some (v, cv) =>
        (true, mkWorld (delete v (clients w)) (ranges w)
                 (trace w
                  ++ send_events rt (length (trace w)) cv "You have been kicked!"
                  ++ [GoClose v]))
    | None => (false, w)
    end.
Proof.
  induction it as [|[c cl] it IH]; [done|]. simpl.
  case_decide; [|done].
  unfold mbind, M_bind, send, get_clients, set_clients, emit, mret, M_ret.
  cbn [clients ranges trace]. by rewrite <- app_assoc.
Qed.

Lemma kickClient_run rt target w :
  kickClient rt target w
  = match first_named target (range_order rt (ranges w) (map_to_list (clients w))) with
    | Some (v, cv) =>
        (true, mkWorld (delete v (clients w)) (S (ranges w))
                 (trace w
                  ++ send_events rt (length (trace w)) cv "You have been kicked!"
                  ++ [GoClose v]))
    | None => (false, mkWorld (clients w) (S (ranges w)) (trace w))
    end.
Proof.
  unfold kickClient, mbind, M_bind, range. rewrite kickClient_loop_run.
  by destruct (first_named _ _) as [[v cv]|].
Qed.

(** A registered nickname is found, whatever the visiting order. *)
Lemma first_named_registered rt n (m : gmap nat Client) target k cl :
  range_valid rt → m !! k = Some cl → nickname cl = target →
  ∃ v cv, first_named target (range_order rt n (map_to_list m)) = Some (v, cv)
          ∧ m !! v = Some cv ∧ nickname cv = target.
Proof.
  intros Hv Hk Hn.
  destruct (range_order_keys rt n m Hv) as (_ & Hin & _).
  destruct (first_named target _) as [[v cv]|] eqn:Hf.
  - apply first_named_Some in Hf as [Hf ?]. apply Hin in Hf. eauto.
  - apply Hin in Hk. by apply (first_named_None _ _ _ _ Hf) in Hk.
Qed.

Lemma SplitN_1 s sep : SplitN s sep 1 = [s].
Proof. by destruct s. Qed.

Lemma sent_to_GoClose k v : sent_to k [GoClose v] = [].
Proof. done. Qed.

(** C2.  When a participant named [N] is registered, [/kick N] issued by
    [K] picks a registered victim with that name; the victim is sent the
    kick notice, its entry is deleted, closing its connection is handed to
    a goroutine of its own (nothing is closed inline), the kicker is sent
    the confirmation, and the kick notice is written once to every
    participant still registered, hence not to the victim. *)
Theorem kick_registered_participant
    (rt : Runtime) (K : Client) (N : string) (w : World) :
  range_valid rt → registry_wf (clients w) →
  (∃ k cl, clients w !! k = Some cl ∧ nickname cl = N) →
  ∃ v cv evs,
    clients w !! v = Some cv ∧ nickname cv = N
    ∧ dispatch rt K ("/kick " +:+ N) w
      = ((), mkWorld (delete v (clients w)) (2 + ranges w) (trace w ++ evs))
    ∧ closes evs = [GoClose v]
    ∧ ∀ c, sent_to c evs
           = (if decide (c = v) then ["You have been kicked!" +:+ LF] else [])
             ++ (if decide (c = conn K)
                 then [("You have kicked " +:+ N) +:+ LF] else [])
             ++ (if decide (c ≠ v ∧ is_Some (clients w !! c))
                 then [(N +:+ " was kicked by " +:+ nickname K) +:+ LF] else []).
Proof.
  intros Hv Hwf (k & cl & Hk & Hn).
  destruct (first_named_registered rt (ranges w) (clients w) N k cl Hv Hk Hn)
    as (v & cv & Hf & Hvm & Hvn).
  exists v, cv.
  assert (conn cv = v) as Hcv by by apply Hwf.
  change (dispatch rt K ("/kick " +:+ N) w)
    with (handleKickClient rt ("/kick " +:+ N) K w).
  unfold handleKickClient.
  change (SplitN ("/kick " +:+ N) " " 2) with ("/kick" :: SplitN N " " 1).
  rewrite SplitN_1. unfold mbind at 1. unfold M_bind at 1.
  rewrite kickClient_run, Hf.
  set (ev1 := send_events rt (length (trace w)) cv "You have been kicked!").
  set (w1 := mkWorld (delete v (clients w)) (S (ranges w)) (trace w ++ ev1 ++ [GoClose v])).
  unfold mbind, M_bind, send. fold w1.
  set (ev2 := send_events rt (length (trace w1)) K ("You have kicked " +:+ N)).
  set (w2 := mkWorld (clients w1) (ranges w1) (trace w1 ++ ev2)).
  destruct (broadcast_run rt (N +:+ " was kicked by " +:+ nickname K) None w2 Hv)
    as (ev3 & Hrun & Hcl3 & Hsent3).
  { by apply registry_wf_delete. }
  exists ((ev1 ++ [GoClose v]) ++ ev2 ++ ev3).
  split; [done|]. split; [done|]. split; [|split].
  - rewrite Hrun. unfold w2, w1. cbn [clients ranges trace].
    by rewrite <- !app_assoc.
  - rewrite !closes_app. unfold ev1, ev2.
    by rewrite !closes_send_events, Hcl3.
  - intros c. rewrite !sent_to_app, sent_to_GoClose, app_nil_r.
    unfold ev1, ev2. rewrite !sent_to_send_events, Hsent3, Hcv.
    unfold w2, w1. cbn [clients is_sender negb]. rewrite andb_true_r.
    f_equal; [by repeat case_decide|].
    f_equal; [by repeat case_decide|].
    rewrite lookup_delete.
    destruct (decide (v = c)) as [->|Hne].
    + rewrite bool_decide_eq_false_2 by (by intros [? ?]).
      by rewrite decide_False by (by intros [? ?]).
    + destruct (decide (is_Some (clients w !! c))).
      * rewrite bool_decide_eq_true_2 by done. by rewrite decide_True.
      * rewrite bool_decide_eq_false_2 by done.
        by rewrite decide_False by (by intros [? ?]).
Qed.

(** Alice kicks Bob. *)
Lemma kick_registered_participant_witness :
  range_valid rt0 ∧ registry_wf (clients w_alice_bob)
  ∧ (∃ k cl, clients w_alice_bob !! k = Some cl ∧ nickname cl = "Bob")
  ∧ ∃ v cv evs,
      clients w_alice_bob !! v = Some cv ∧ nickname cv = "Bob"
      ∧ dispatch rt0 alice1 "/kick Bob" w_alice_bob
        = ((), mkWorld (delete v (clients w_alice_bob)) (2 + ranges w_alice_bob)
                 (trace w_alice_bob ++ evs))
      ∧ closes evs = [GoClose v]
      ∧ ∀ c, sent_to c evs
             = (if decide (c = v) then ["You have been kicked!" +:+ LF] else [])
               ++ (if decide (c = conn alice1)
                   then ["You have kicked Bob" +:+ LF] else [])
               ++ (if decide (c ≠ v ∧ is_Some (clients w_alice_bob !! c))
                   then ["Bob was kicked by Alice" +:+ LF] else []).
Proof.
  assert (∃ k cl, clients w_alice_bob !! k = Some cl ∧ nickname cl = "Bob") as H.
  { by exists 2, bob2. }
  split; [exact range_valid_rt0|]. split; [exact registry_wf_alice_bob|].
  split; [exact H|].
  exact (kick_registered_participant rt0 alice1 "Bob" w_alice_bob
           range_valid_rt0 registry_wf_alice_bob H).
Defined.

(** ** Parsing the kick command *)

Lemma SplitN_no_space s : has_space s = false → SplitN s " " 2 = [s].
Proof.
  induction s as [|a s IH]; [done|]. simpl.
  intros [Ha Hs]%orb_false_iff. rewrite Ha.
  specialize (IH Hs). simpl in IH. by rewrite IH.
Qed.

Lemma SplitN_at_space cmd arg :
  has_space cmd = false → SplitN (cmd +:+ " " +:+ arg) " " 2 = [cmd; arg].
Proof.
  induction cmd as [|a cmd IH].
  - intros _. simpl. by rewrite SplitN_1.
  - simpl. intros [Ha Hs]%orb_false_iff. rewrite Ha.
    specialize (IH Hs). simpl in IH. by rewrite IH.
Qed.

Lemma has_space_split s :
  has_space s = true →
  ∃ cmd arg, s = cmd +:+ " " +:+ arg ∧ has_space cmd = false.
Proof.
  induction s as [|a s IH]; [done|]. simpl.
  destruct (Ascii.eqb a " ") eqn:Ha.
  - intros _. apply Ascii.eqb_eq in Ha as ->. by exists "", s.
  - simpl. intros Hs. destruct (IH Hs) as (cmd & arg & Heq & Hc).
    exists (String a cmd), arg. simpl. rewrite Ha, Hc. by rewrite Heq at 1.
Qed.

Lemma HasPrefix_kick message :
  HasPrefix message "/kick" = true →
  HasPrefix message "/list" = false ∧ HasPrefix message "/time" = false.
Proof.
  destruct message as [|a [|b m]]; cbn; try done.
  - by rewrite andb_false_r.
  - intros [Ha [Hb _]%andb_true_iff]%andb_true_iff.
    apply Ascii.eqb_eq in Hb as ->. by rewrite Ha.
Qed.

Lemma dispatch_kick rt sender message w :
  HasPrefix message "/kick" = true →
  dispatch rt sender message w = handleKickClient rt message sender w.
Proof.
  intros H. destruct (HasPrefix_kick message H) as [Hl Ht].
  unfold dispatch. by rewrite Hl, Ht, H.
Qed.

Lemma handleKickClient_target rt message sender w :
  handleKickClient rt message sender w
  = match kick_target message with
    | Some target =>
        (kicked ← kickClient rt target;
         if kicked : bool then
           send rt sender ("You have kicked " +:+ target);;
           broadcast rt (target +:+ " was kicked by " +:+ nickname sender) None
         else mret ()) w
    | None => send rt sender "Usage: /kick <nickname>" w
    end.
Proof.
  unfold handleKickClient, kick_target.
  by destruct (SplitN message " " 2) as [|? [|? [|? ?]]].
Qed.

(** C3, as amended.  A line dispatched as a kick command is cut at its
    first space character.  With no space in the line no target is read:
    the usage message is sent to the sender and nothing else happens.
    Otherwise the target is all the text after the first space, taken as
    it is, and the kick is attempted with that target. *)
Theorem kick_target_after_first_space
    (rt : Runtime) (sender : Client) (message : string) (w : World) :
  HasPrefix message "/kick" = true →
  dispatch rt sender message w = handleKickClient rt message sender w
  ∧ (has_space message = false →
     kick_target message = None
     ∧ dispatch rt sender message w = send rt sender "Usage: /kick <nickname>" w)
  ∧ (has_space message = true →
     ∃ cmd arg, message = cmd +:+ " " +:+ arg ∧ has_space cmd = false)
  ∧ (∀ cmd arg,
       message = cmd +:+ " " +:+ arg → has_space cmd = false →
       kick_target message = Some arg
       ∧ dispatch rt sender message w
         = (kicked ← kickClient rt arg;
            if kicked : bool then
              send rt sender ("You have kicked " +:+ arg);;
              broadcast rt (arg +:+ " was kicked by " +:+ nickname sender) None
            else mret ()) w).
Proof.
  intros H. pose proof (dispatch_kick rt sender message w H) as Hd.
  split; [done|]. rewrite Hd, handleKickClient_target.
  split; [|split].
  - intros Hs. unfold kick_target. by rewrite SplitN_no_space.
  - apply has_space_split.
  - intros cmd arg -> Hc. unfold kick_target. by rewrite SplitN_at_space.
Qed.

(** The target of [/kick Bob Smith] is [Bob Smith]. *)
Lemma kick_target_after_first_space_witness :
  HasPrefix "/kick Bob Smith" "/kick" = true
  ∧ kick_target "/kick Bob Smith" = Some "Bob Smith"
  ∧ kick_target "/kick" = None.
Proof.
  split; [done|].
  destruct (kick_target_after_first_space rt0 alice1 "/kick Bob Smith" w_alice_bob)
    as (_ & _ & _ & H); [done|].
  destruct (H "/kick" "Bob Smith") as [Ht _]; done.
Defined.

(** C3, as stated, fails.  With two spaces after the command word the
    argument after the whitespace run is [Bob], but the target read is
    [Bob] preceded by a space, so the registered Bob is not kicked and
    nothing is sent; with a tab after the command word the argument is
    [Bob] again, but no target is read and the usage message is sent. *)
Lemma kick_target_not_after_whitespace_run :
  (HasPrefix "/kick  Bob" "/kick" = true
   ∧ spec_kick_target "/kick  Bob" = Some "Bob"
   ∧ kick_target "/kick  Bob" = Some " Bob"
   ∧ clients (exec (dispatch rt0 alice1 "/kick  Bob") w_alice_bob)
     = clients w_alice_bob
   ∧ trace (exec (dispatch rt0 alice1 "/kick  Bob") w_alice_bob) = [])
  ∧ (HasPrefix kick_tab_Bob "/kick" = true
     ∧ spec_kick_target kick_tab_Bob = Some "Bob"
     ∧ kick_target kick_tab_Bob = None
     ∧ sent_to 1 (trace (exec (dispatch rt0 alice1 kick_tab_Bob) w_alice_bob))
       = ["Usage: /kick <nickname>" +:+ LF]).
Proof. repeat split; by vm_compute. Qed.

(** C6.  [/kick] without an argument writes the usage line to the sender,
    and only that: the registry is the same map afterwards, nothing is
    written to any other connection and nothing is closed.  The same holds
    for the line as the session loop receives it. *)
Theorem kick_without_argument_usage (rt : Runtime) (sender : Client) (w : World) :
  ∃ evs,
    dispatch rt sender "/kick" w
    = ((), mkWorld (clients w) (ranges w) (trace w ++ evs))
    ∧ handleKickClient rt "/kick" sender w = dispatch rt sender "/kick" w
    ∧ closes evs = []
    ∧ (∀ k, sent_to k evs
            = if decide (conn sender = k)
              then ["Usage: /kick <nickname>" +:+ LF] else [])
    ∧ (∀ line rest,
         TrimSpace rt line = "/kick" →
         session_loop rt sender (line :: rest) w
         = session_loop rt sender rest
             (mkWorld (clients w) (ranges w) (trace w ++ evs))).
Proof.
  exists (send_events rt (length (trace w)) sender "Usage: /kick <nickname>").
  split; [done|]. split; [done|]. split; [apply closes_send_events|].
  split; [intros k; apply sent_to_send_events|].
  intros line rest H. cbn [session_loop]. rewrite H. done.
Qed.

(** ** The roster *)

Lemma string_app_assoc (a b c : string) : (a +:+ b) +:+ c = a +:+ (b +:+ c).
Proof.
  induction a as [|x a IH]; [done|].
  change (String x ((a +:+ b) +:+ c) = String x (a +:+ (b +:+ c))). by f_equal.
Qed.

Lemma string_app_nil_r (a : string) : a +:+ "" = a.
Proof.
  induction a as [|x a IH]; [done|].
  change (String x (a +:+ "") = String x a). by f_equal.
Qed.

Lemma roster_lines_join hdr it :
  roster_lines hdr it = hdr +:+ join (roster_line <$> it.*2).
Proof.
  unfold roster_lines. revert hdr.
  induction it as [|[c cl] it IH]; intros hdr.
  - simpl. by rewrite string_app_nil_r.
  - cbn [foldl]. rewrite IH. rewrite !fmap_cons. cbn [join foldr snd].
    fold (join (roster_line <$> it.*2)). by rewrite string_app_assoc.
Qed.

Lemma getClientList_run rt w :
  getClientList rt w
  = if decide (size (clients w) = 0) then ("No clients connected", w)
    else (roster_lines ("Connected clients (" +:+ Itoa (size (clients w)) +:+ "):")
            (range_order rt (ranges w) (map_to_list (clients w))),
          mkWorld (clients w) (S (ranges w)) (trace w)).
Proof.
  unfold getClientList, mbind, M_bind, get_clients. by case_decide.
Qed.



Lemma eval_getClientList_visit rt w :
  size (clients w) ≠ 0 →
  eval (getClientList rt) w
  = ("Connected clients (" +:+ Itoa (size (clients w)) +:+ "):")
    +:+ join (roster_line <$> (range_order rt (ranges w) (map_to_list (clients w))).*2).
Proof.
  intros H. unfold eval. rewrite getClientList_run, decide_False by done.
  apply roster_lines_join.
Qed.




(** ** Visiting order *)





(** ** The handshake and the end of a session *)

Lemma M_bind_run {A B} (m : M A) (f : A → M B) w :
  (m ≫= f) w = f (m w).1 (m w).2.
Proof. unfold mbind, M_bind. by destruct (m w). Qed.

Lemma clients_broadcast rt msg sender w :
  clients (broadcast rt msg sender w).2 = clients w.
Proof.
  unfold broadcast. rewrite M_bind_run.
  destruct (broadcast_loop_run rt msg sender (range rt w).1 (range rt w).2)
    as (evs & -> & _). done.
Qed.



Lemma handshake_run rt c lines w :
  range_valid rt → registry_wf (clients w) →
  let cl := (read_nickname rt c lines).1 in
  ∃ evs,
    handshake rt c lines w
    = (read_nickname rt c lines,
       mkWorld (<[c := cl]> (clients w)) (S (ranges w)) (trace w ++ evs))
    ∧ closes evs = []
    ∧ ∀ k, sent_to k evs
           = (if decide (c = k)
              then ["Welcome to the Go Socket Server!" +:+ LF;
                    "Please enter your nickname:" +:+ LF]
              else [])
             ++ (if bool_decide (is_Some (clients w !! k)) && negb (bool_decide (k = c))
                 then [(nickname cl +:+ " joined the chat") +:+ LF] else []).
Proof.
  intros Hv Hwf cl.
  assert (conn cl = c) as Hcl by (unfold cl; by destruct lines).
  unfold handshake. fold cl. rewrite !M_bind_run.
  unfold send, addClient. rewrite !M_bind_run.
  cbn [get_clients set_clients fst snd clients ranges trace conn].
  rewrite Hcl.
  match goal with
  | |- context [broadcast rt ?m ?sd ?w0] =>
      destruct (broadcast_run rt m sd w0 Hv) as (evs & Hrun & Hclose & Hsent)
  end.
  { cbn [clients]. rewrite <- Hcl. by apply registry_wf_insert. }
  rewrite Hrun. cbn [emit mret M_ret fst snd clients ranges trace].
  eexists. split; [by rewrite <- !app_assoc|]. split.
  - rewrite !closes_app, !closes_send_events, Hclose. done.
  - intros k. rewrite !sent_to_app, !sent_to_send_events, Hsent.
    cbn [conn clients is_sender sent_to]. rewrite app_nil_r, Hcl.
    destruct (decide (c = k)) as [<-|Hne].
    + rewrite !(bool_decide_eq_true_2 (c = c)) by done.
      by rewrite !andb_false_r.
    + rewrite !(bool_decide_eq_false_2 (k = c)) by done.
      rewrite lookup_insert_ne by done. done.
Qed.

Lemma disconnect_run rt cl w :
  range_valid rt → registry_wf (clients w) →
  ∃ evs,
    disconnect rt cl w
    = ((), mkWorld (delete (conn cl) (clients w)) (S (ranges w)) (trace w ++ evs))
    ∧ closes evs = [ConnClose (conn cl)]
    ∧ ∀ k, sent_to k evs
           = if bool_decide (is_Some (clients w !! k)) && negb (bool_decide (k = conn cl))
             then [(nickname cl +:+ " left the chat") +:+ LF] else [].
Proof.
  intros Hv Hwf.
  unfold disconnect. rewrite !M_bind_run.
  unfold removeClient. rewrite !M_bind_run.
  cbn [get_clients set_clients fst snd clients ranges trace].
  match goal with
  | |- context [broadcast rt ?m ?sd ?w0] =>
      destruct (broadcast_run rt m sd w0 Hv) as (evs & Hrun & Hclose & Hsent)
  end.
  { cbn [clients]. by apply registry_wf_delete. }
  rewrite Hrun. cbn [emit mret M_ret fst snd clients ranges trace].
  unfold emit. cbn [fst snd clients ranges trace].
  eexists. split; [by rewrite <- !app_assoc|]. split.
  - rewrite !closes_app, Hclose. done.
  - intros k. rewrite !sent_to_app, Hsent.
    cbn [clients is_sender sent_to negb]. rewrite !app_nil_r, andb_true_r.
    rewrite lookup_delete.
    destruct (decide (k = conn cl)) as [->|Hne].
    + rewrite decide_True by done.
      rewrite (bool_decide_eq_true_2 (conn cl = conn cl)) by done.
      rewrite andb_false_r. by rewrite bool_decide_eq_false_2 by (by intros [? ?]).
    + rewrite decide_False by done.
      rewrite (bool_decide_eq_false_2 (k = conn cl)) by done.
      by rewrite andb_true_r.
Qed.

(** C10.  When the scanner delivers no line at all, the handshake still
    registers the connection, under the empty nickname, and writes the
    join notice with the empty name to every other registered client;
    the session loop then does nothing, and the session ends as any other:
    the entry is removed, the leave notice with the empty name goes to
    every client still registered, and the connection is closed. *)
Theorem end_of_input_before_nickname (rt : Runtime) (c : Conn) (w : World) :
  range_valid rt → registry_wf (clients w) →
  ∃ evs1 evs2,
    handshake rt c [] w
    = ((mkClient c "", []),
       mkWorld (<[c := mkClient c ""]> (clients w)) (S (ranges w)) (trace w ++ evs1))
    ∧ nickname (mkClient c "") ≠ "Anonymous"
    ∧ (∀ k, k ≠ c → is_Some (clients w !! k) →
            sent_to k evs1 = [" joined the chat" +:+ LF])
    ∧ handleClient rt c [] w
      = ((), mkWorld (delete c (clients w)) (2 + ranges w)
               (trace w ++ evs1 ++ evs2))
    ∧ (∀ k, k ≠ c → is_Some (clients w !! k) →
            sent_to k evs2 = [" left the chat" +:+ LF])
    ∧ sent_to c (evs1 ++ evs2)
      = ["Welcome to the Go Socket Server!" +:+ LF;
         "Please enter your nickname:" +:+ LF]
    ∧ closes (evs1 ++ evs2) = [ConnClose c].
Proof.
  intros Hv Hwf.
  destruct (handshake_run rt c [] w Hv Hwf) as (evs1 & Hrun1 & Hcl1 & Hsent1).
  cbn [read_nickname fst nickname] in Hrun1, Hsent1.
  set (w1 := mkWorld (<[c := mkClient c ""]> (clients w)) (S (ranges w))
               (trace w ++ evs1)) in *.
  destruct (disconnect_run rt (mkClient c "") w1 Hv) as (evs2 & Hrun2 & Hcl2 & Hsent2).
  { apply (registry_wf_insert (clients w) (mkClient c "")), Hwf. }
  cbn [conn nickname clients ranges trace w1] in Hrun2, Hcl2, Hsent2.
  exists evs1, evs2. split; [done|]. split; [done|]. split; [|split; [|split; [|split]]].
  - intros k Hk Hin. rewrite Hsent1, decide_False by done.
    by rewrite bool_decide_eq_true_2, bool_decide_eq_false_2.
  - unfold handleClient. rewrite M_bind_run, Hrun1.
    cbn [fst snd session_loop]. rewrite M_bind_run.
    cbn [mret M_ret fst snd]. fold w1. rewrite Hrun2.
    by rewrite delete_insert_eq, app_assoc.
  - intros k Hk Hin. rewrite Hsent2, lookup_insert_ne by done.
    by rewrite bool_decide_eq_true_2, bool_decide_eq_false_2.
  - rewrite sent_to_app, Hsent1, Hsent2, decide_True by done.
    rewrite !(bool_decide_eq_true_2 (c = c)) by done.
    by rewrite !andb_false_r.
  - by rewrite closes_app, Hcl1, Hcl2.
Qed.

(** A connection that is closed at once, with Alice and Bob registered. *)
Lemma end_of_input_before_nickname_witness :
  range_valid rt0 ∧ registry_wf (clients w_alice_bob)
  ∧ ∃ evs1 evs2,
      handshake rt0 3 [] w_alice_bob
      = ((mkClient 3 "", []),
         mkWorld (<[3 := mkClient 3 ""]> (clients w_alice_bob))
           (S (ranges w_alice_bob)) (trace w_alice_bob ++ evs1))
      ∧ nickname (mkClient 3 "") ≠ "Anonymous"
      ∧ (∀ k, k ≠ 3 → is_Some (clients w_alice_bob !! k) →
              sent_to k evs1 = [" joined the chat" +:+ LF])
      ∧ handleClient rt0 3 [] w_alice_bob
        = ((), mkWorld (delete 3 (clients w_alice_bob)) (2 + ranges w_alice_bob)
                 (trace w_alice_bob ++ evs1 ++ evs2))
      ∧ (∀ k, k ≠ 3 → is_Some (clients w_alice_bob !! k) →
              sent_to k evs2 = [" left the chat" +:+ LF])
      ∧ sent_to 3 (evs1 ++ evs2)
        = ["Welcome to the Go Socket Server!" +:+ LF;
           "Please enter your nickname:" +:+ LF]
      ∧ closes (evs1 ++ evs2) = [ConnClose 3].
Proof.
  split; [exact range_valid_rt0|]. split; [exact registry_wf_alice_bob|].
  exact (end_of_input_before_nickname rt0 3 w_alice_bob
           range_valid_rt0 registry_wf_alice_bob).
Defined.

(** ** Adding and removing *)

(** C4, as amended.  [addClient] stores [p] under [p]'s connection whether
    or not the key was present: a fresh key grows the registry by one
    entry, an existing key has its entry replaced by [p].  Every other
    entry is untouched, and the registry is unchanged exactly when the
    entry already stored there is [p] itself. *)
Theorem addClient_inserts_or_replaces (p : Client) (w : World) :
  let w' := exec (addClient p) w in
  clients w' !! conn p = Some p
  ∧ (∀ k, k ≠ conn p → clients w' !! k = clients w !! k)
  ∧ (clients w !! conn p = None → size (clients w') = S (size (clients w)))
  ∧ (is_Some (clients w !! conn p) → size (clients w') = size (clients w))
  ∧ (clients w' = clients w ↔ clients w !! conn p = Some p)
  ∧ ranges w' = ranges w ∧ trace w' = trace w.
Proof.
  unfold exec. rewrite addClient_run. cbn [snd clients ranges trace].
  repeat split.
  - apply lookup_insert_eq.
  - intros k Hk. by apply lookup_insert_ne.
  - apply map_size_insert_None.
  - apply map_size_insert_Some.
  - intros H. rewrite <- H. apply lookup_insert_eq.
  - apply insert_id.
Qed.

(** C4, as stated, fails: adding Bob on the connection under which Alice is
    registered changes the registry. *)
Lemma addClient_existing_key_not_noop :
  is_Some (clients w_alice !! conn bob1)
  ∧ clients (exec (addClient bob1) w_alice) ≠ clients w_alice.
Proof.
  split; [by eexists|].
  intros H. apply (f_equal (λ m, m !! 1)) in H. vm_compute in H. discriminate.
Qed.

(** C7.  [removeClient] never fails; on a connection that is not
    registered it changes nothing, a second removal changes nothing more,
    every other entry is kept as it is, and this also holds when the entry
    was removed by [kickClient] before. *)
Theorem removeClient_idempotent (p : Client) (w : World) :
  (clients w !! conn p = None → removeClient p w = ((), w))
  ∧ exec (removeClient p) (exec (removeClient p) w) = exec (removeClient p) w
  ∧ clients (exec (removeClient p) w) !! conn p = None
  ∧ (∀ k, k ≠ conn p →
       clients (exec (removeClient p) w) !! k = clients w !! k)
  ∧ (∀ rt target cv,
       first_named target (range_order rt (ranges w) (map_to_list (clients w)))
       = Some (conn p, cv) →
       removeClient p (exec (kickClient rt target) w)
       = ((), exec (kickClient rt target) w)).
Proof.
  assert (∀ w0, clients w0 !! conn p = None → removeClient p w0 = ((), w0)) as Habs.
  { intros w0 H. rewrite removeClient_run, delete_id by done. by destruct w0. }
  unfold exec. rewrite !removeClient_run. cbn [snd clients ranges trace].
  split; [apply Habs|]. split; [by rewrite delete_delete_eq|].
  split; [apply lookup_delete_eq|]. split.
  - intros k Hk. by apply lookup_delete_ne.
  - intros rt target cv H. apply Habs. unfold exec.
    rewrite kickClient_run, H. apply lookup_delete_eq.
Qed.

(** ** The registry invariant *)







(** ** Examples *)

Example TrimSpace_ascii_examples :
  TrimSpace_ascii "  Alice " = "Alice"
  ∧ TrimSpace_ascii "   " = ""
  ∧ eval (handshake rt0 3 ["  Alice "]) NewServer = (mkClient 3 "Alice", [])
  ∧ eval (handshake rt0 3 ["   "; "hi"]) NewServer = (mkClient 3 "Anonymous", ["hi"]).
Proof. repeat split. Qed.

Example Itoa_examples : Itoa 0 = "0" ∧ Itoa 7 = "7" ∧ Itoa 120 = "120".
Proof. repeat split. Qed.

Example SplitN_examples :
  SplitN "/kick Bob" " " 2 = ["/kick"; "Bob"]
  ∧ SplitN "/kick Bob Smith" " " 2 = ["/kick"; "Bob Smith"]
  ∧ SplitN "/kick" " " 2 = ["/kick"]
  ∧ SplitN "a b c" " " 3 = ["a"; "b"; "c"]
  ∧ SplitN "a b c" " " 1 = ["a b c"]
  ∧ SplitN "" " " 2 = [""].
Proof. repeat split. Qed.

Example session_example :
  trace (exec (handleClient rt0 1 ["Carol"; "/list"; ""; "/kick"; "/kick Carol"; "/list"])
           NewServer)
  = [ConnWrite 1 ("Welcome to the Go Socket Server!" +:+ LF);
     ConnWrite 1 ("Please enter your nickname:" +:+ LF);
     Stdout ("Client Carol connected from peer" +:+ LF);
     ConnWrite 1 ("Connected clients (1):" +:+ LF +:+ "- Carol" +:+ LF);
     ConnWrite 1 ("Usage: /kick <nickname>" +:+ LF);
     ConnWrite 1 ("You have been kicked!" +:+ LF);
     GoClose 1;
     ConnWrite 1 ("You have kicked Carol" +:+ LF);
     ConnWrite 1 ("No clients connected" +:+ LF);
     Stdout ("Client Carol disconnected" +:+ LF);
     ConnClose 1].
Proof. by vm_compute. Qed.

(** ** Single commands *)

Lemma first_named_unnamed rt n (m : gmap nat Client) N :
  range_valid rt → unnamed m N →
  first_named N (range_order rt n (map_to_list m)) = None.
Proof.
  intros Hv Hu.
  destruct (first_named N _) as [[v cv]|] eqn:Hf; [|done].
  apply first_named_Some in Hf as [Hin Hn].
  apply (range_order_keys rt n m Hv) in Hin. by apply Hu in Hin.
Qed.

(** What a kick with target [N] issued by [K] does, by the entry the loop
    of [kickClient] stops at. *)
Lemma kick_run rt K N w :
  range_valid rt → registry_wf (clients w) →
  let run :=
    (kicked ← kickClient rt N;
     if kicked : bool then
       send rt K ("You have kicked " +:+ N);;
       broadcast rt (N +:+ " was kicked by " +:+ nickname K) None
     else mret ()) w in
  match first_named N (range_order rt (ranges w) (map_to_list (clients w))) with
  | Some (v, cv) =>
      clients w !! v = Some cv ∧ nickname cv = N
      ∧ ∃ evs,
          run = ((), mkWorld (delete v (clients w)) (2 + ranges w) (trace w ++ evs))
          ∧ closes evs = [GoClose v]
          ∧ ∀ c, sent_to c evs
                 = (if decide (c = v) then ["You have been kicked!" +:+ LF] else [])
                   ++ (if decide (c = conn K)
                       then [("You have kicked " +:+ N) +:+ LF] else [])
                   ++ (if decide (c ≠ v ∧ is_Some (clients w !! c))
                       then [(N +:+ " was kicked by " +:+ nickname K) +:+ LF]
                       else [])
  | None => run = ((), mkWorld (clients w) (S (ranges w)) (trace w))
  end.
Proof.
  intros Hv Hwf run. unfold run. clear run.
  rewrite M_bind_run, kickClient_run.
  destruct (first_named N _) as [[v cv]|] eqn:Hf; [|done].
  apply first_named_Some in Hf as [Hin Hn].
  apply (range_order_keys rt (ranges w) (clients w) Hv) in Hin.
  assert (conn cv = v) as Hcv by by apply Hwf.
  split; [done|]. split; [done|]. cbn [fst snd].
  set (ev1 := send_events rt (length (trace w)) cv "You have been kicked!").
  set (w1 := mkWorld (delete v (clients w)) (S (ranges w))
               (trace w ++ ev1 ++ [GoClose v])).
  unfold mbind, M_bind, send. fold w1.
  set (ev2 := send_events rt (length (trace w1)) K ("You have kicked " +:+ N)).
  set (w2 := mkWorld (clients w1) (ranges w1) (trace w1 ++ ev2)).
  destruct (broadcast_run rt (N +:+ " was kicked by " +:+ nickname K) None w2 Hv)
    as (ev3 & Hrun & Hcl3 & Hsent3).
  { by apply registry_wf_delete. }
  exists ((ev1 ++ [GoClose v]) ++ ev2 ++ ev3). split; [|split].
  - rewrite Hrun. unfold w2, w1. cbn [clients ranges trace].
    by rewrite <- !app_assoc.
  - rewrite !closes_app. unfold ev1, ev2.
    by rewrite !closes_send_events, Hcl3.
  - intros c. rewrite !sent_to_app, sent_to_GoClose, app_nil_r.
    unfold ev1, ev2. rewrite !sent_to_send_events, Hsent3, Hcv.
    unfold w2, w1. cbn [clients is_sender negb]. rewrite andb_true_r.
    f_equal; [by repeat case_decide|].
    f_equal; [by repeat case_decide|].
    rewrite lookup_delete.
    destruct (decide (v = c)) as [->|Hne].
    + rewrite bool_decide_eq_false_2 by (by intros [? ?]).
      by rewrite decide_False by (by intros [? ?]).
    + destruct (decide (is_Some (clients w !! c))).
      * rewrite bool_decide_eq_true_2 by done. by rewrite decide_True.
      * rewrite bool_decide_eq_false_2 by done.
        by rewrite decide_False by (by intros [? ?]).
Qed.

(** A kick of a nickname nobody carries: the sender gets no reply, nothing
    is written to anyone, nothing is closed, and the registry is the same
    map.  This holds for every line whose text after the first space is
    such a nickname. *)
Theorem kick_unknown_name_is_silent
    (rt : Runtime) (K : Client) (message N : string) (w : World) :
  range_valid rt →
  HasPrefix message "/kick" = true →
  kick_target message = Some N →
  unnamed (clients w) N →
  dispatch rt K message w = ((), mkWorld (clients w) (S (ranges w)) (trace w))
  ∧ eval (kickClient rt N) w = false.
Proof.
  intros Hv Hp Ht Hu.
  rewrite dispatch_kick, handleKickClient_target, Ht by done.
  unfold eval, mbind, M_bind. rewrite kickClient_run.
  by rewrite (first_named_unnamed rt (ranges w) (clients w) N Hv Hu).
Qed.

(** Alice asks to kick Dave; only Alice and Bob are registered. *)
Lemma kick_unknown_name_is_silent_witness :
  dispatch rt0 alice1 "/kick Dave" w_alice_bob
  = ((), mkWorld (clients w_alice_bob) (S (ranges w_alice_bob)) (trace w_alice_bob))
  ∧ eval (kickClient rt0 "Dave") w_alice_bob = false.
Proof.
  apply (kick_unknown_name_is_silent rt0 alice1 "/kick Dave" "Dave" w_alice_bob
           range_valid_rt0 eq_refl eq_refl).
  intros k cl H Hn.
  assert (clients w_alice_bob = <[1 := alice1]> {[2 := bob2]}) as Hm by by vm_compute.
  rewrite Hm in H. apply lookup_insert_Some in H as [[_ <-]|[_ H]]; [done|].
  apply lookup_singleton_Some in H as [_ <-]. done.
Defined.

(** [kickClient] reports success exactly when some registered client
    carries the nickname.  On success one entry with that nickname is
    deleted and no other, also when several clients carry it; on failure
    the registry is the same map. *)
Theorem kickClient_removes_exactly_one (rt : Runtime) (N : string) (w : World) :
  range_valid rt →
  let w' := exec (kickClient rt N) w in
  (eval (kickClient rt N) w = true
   ↔ ∃ k cl, clients w !! k = Some cl ∧ nickname cl = N)
  ∧ (eval (kickClient rt N) w = true →
     ∃ v cv, clients w !! v = Some cv ∧ nickname cv = N
             ∧ clients w' = delete v (clients w)
             ∧ S (size (clients w')) = size (clients w))
  ∧ (eval (kickClient rt N) w = false → clients w' = clients w).
Proof.
  intros Hv. unfold eval, exec. rewrite kickClient_run.
  destruct (first_named N _) as [[v cv]|] eqn:Hf; cbn [fst snd clients].
  - apply first_named_Some in Hf as [Hin Hn].
    apply (range_order_keys rt (ranges w) (clients w) Hv) in Hin.
    split; [|split; [|done]].
    + split; [eauto|done].
    + intros _. exists v, cv. split; [done|]. split; [done|]. split; [done|].
      rewrite map_size_delete_Some by done.
      assert (size (clients w) ≠ 0); [|lia].
      apply (map_size_ne_0_lookup_2 _ v). by eexists.
  - split; [|split; [done|done]].
    split; [done|]. intros (k & cl & Hk & Hn).
    destruct (first_named_registered rt (ranges w) (clients w) N k cl Hv Hk Hn)
      as (v & cv & Hf' & _). congruence.
Qed.

(** A kick of Bob where two clients are named Bob. *)
Lemma kickClient_removes_exactly_one_witness :
  (eval (kickClient rt0 "Bob") w_bobs = true
   ↔ ∃ k cl, clients w_bobs !! k = Some cl ∧ nickname cl = "Bob")
  ∧ (eval (kickClient rt0 "Bob") w_bobs = true →
     ∃ v cv, clients w_bobs !! v = Some cv ∧ nickname cv = "Bob"
             ∧ clients (exec (kickClient rt0 "Bob") w_bobs) = delete v (clients w_bobs)
             ∧ S (size (clients (exec (kickClient rt0 "Bob") w_bobs)))
               = size (clients w_bobs))
  ∧ (eval (kickClient rt0 "Bob") w_bobs = false →
     clients (exec (kickClient rt0 "Bob") w_bobs) = clients w_bobs).
Proof. exact (kickClient_removes_exactly_one rt0 "Bob" w_bobs range_valid_rt0). Defined.

(** A line that is no command is relayed as a chat message: it is written
    once, prefixed by the sender's nickname in brackets, to every
    registered connection except the sender's own, to nobody else, and
    the registry is the same map. *)
Theorem chat_message_relayed
    (rt : Runtime) (cl : Client) (message : string) (w : World) :
  range_valid rt → registry_wf (clients w) →
  is_command message = false →
  ∃ evs,
    dispatch rt cl message w
    = ((), mkWorld (clients w) (S (ranges w)) (trace w ++ evs))
    ∧ closes evs = []
    ∧ ∀ k, sent_to k evs
           = if bool_decide (is_Some (clients w !! k)) && negb (bool_decide (k = conn cl))
             then [("[" +:+ nickname cl +:+ "]: " +:+ message) +:+ LF] else [].
Proof.
  intros Hv Hwf Hc. unfold is_command in Hc.
  apply orb_false_iff in Hc as [Hc Hk].
  apply orb_false_iff in Hc as [Hc Ht].
  apply orb_false_iff in Hc as [_ Hl].
  unfold dispatch. rewrite Hl, Ht, Hk.
  apply (broadcast_run rt _ (Some cl) w Hv Hwf).
Qed.

(** Alice says hello to Bob. *)
Lemma chat_message_relayed_witness :
  ∃ evs,
    dispatch rt0 alice1 "hello" w_alice_bob
    = ((), mkWorld (clients w_alice_bob) (S (ranges w_alice_bob))
             (trace w_alice_bob ++ evs))
    ∧ closes evs = []
    ∧ ∀ k, sent_to k evs
           = if bool_decide (is_Some (clients w_alice_bob !! k))
                && negb (bool_decide (k = conn alice1))
             then [("[" +:+ nickname alice1 +:+ "]: " +:+ "hello") +:+ LF] else [].
Proof.
  exact (chat_message_relayed rt0 alice1 "hello" w_alice_bob
           range_valid_rt0 registry_wf_alice_bob eq_refl).
Defined.

(** [/list] and [/time] are answered in private: one line, the roster or
    the server time, is written to the requester's connection and nothing
    to any other; nothing is closed and the registry is the same map. *)
Theorem list_and_time_reply_privately
    (rt : Runtime) (cl : Client) (message : string) (w : World) :
  HasPrefix message "/list" = true ∨ HasPrefix message "/time" = true →
  ∃ evs reply,
    trace (exec (dispatch rt cl message) w) = trace w ++ evs
    ∧ clients (exec (dispatch rt cl message) w) = clients w
    ∧ closes evs = []
    ∧ (∀ k, sent_to k evs = if decide (conn cl = k) then [reply +:+ LF] else [])
    ∧ reply = (if HasPrefix message "/list" then eval (getClientList rt) w
               else "Server time: " +:+ clock rt (length (trace w))).
Proof.
  intros H. unfold exec, dispatch.
  destruct (HasPrefix message "/list") eqn:Hl.
  - rewrite M_bind_run. unfold eval.
    set (reply := (getClientList rt w).1).
    exists (send_events rt (length (trace w)) cl reply), reply.
    assert (trace (getClientList rt w).2 = trace w
            ∧ clients (getClientList rt w).2 = clients w) as [Ht Hc].
    { rewrite getClientList_run. by case_decide. }
    cbn [send snd trace clients]. rewrite Ht, Hc.
    split; [done|]. split; [done|]. split; [apply closes_send_events|].
    split; [|done]. intros k. apply sent_to_send_events.
  - destruct H as [H|H]; [done|]. rewrite H.
    eexists _, _. cbn [send snd trace clients].
    split; [done|]. split; [done|]. split; [apply closes_send_events|].
    split; [|done]. intros k. apply sent_to_send_events.
Qed.

(** Bob asks for the time with Alice registered too. *)
Lemma list_and_time_reply_privately_witness :
  ∃ evs reply,
    trace (exec (dispatch rt0 bob2 "/time") w_alice_bob) = trace w_alice_bob ++ evs
    ∧ clients (exec (dispatch rt0 bob2 "/time") w_alice_bob) = clients w_alice_bob
    ∧ closes evs = []
    ∧ (∀ k, sent_to k evs = if decide (conn bob2 = k) then [reply +:+ LF] else [])
    ∧ reply = (if HasPrefix "/time" "/list" then eval (getClientList rt0) w_alice_bob
               else "Server time: " +:+ clock rt0 (length (trace w_alice_bob))).
Proof.
  apply (list_and_time_reply_privately rt0 bob2 "/time" w_alice_bob). by right.
Defined.

(** ** The session loop *)

(** The session loop stops at the first line that, once trimmed, starts
    with [/quit], whatever follows the word: that line produces no event
    and no line after it is looked at. *)
Theorem quit_ends_session
    (rt : Runtime) (cl : Client) (pre rest : list string) (q : string) (w : World) :
  HasPrefix (TrimSpace rt q) "/quit" = true →
  session_loop rt cl (pre ++ q :: rest) w = session_loop rt cl pre w.
Proof.
  intros Hq. revert w. induction pre as [|line pre IH]; intros w.
  - cbn [app session_loop]. rewrite Hq.
    case_decide as He; [|done]. by rewrite He in Hq.
  - cbn [app session_loop]. case_decide; [apply IH|].
    destruct (HasPrefix (TrimSpace rt line) "/quit"); [done|].
    rewrite !M_bind_run. apply IH.
Qed.

(** Carol says hi and quits with a remark; what she typed after is lost. *)
Lemma quit_ends_session_witness :
  session_loop rt0 carol3 (["hi"] ++ "/quit for now" :: ["/kick Bob"; "more"]) w_alice_bob
  = session_loop rt0 carol3 ["hi"] w_alice_bob.
Proof.
  exact (quit_ends_session rt0 carol3 ["hi"] ["/kick Bob"; "more"] "/quit for now"
           w_alice_bob eq_refl).
Defined.

(** Lines that are empty once trimmed do nothing at all: dropping them from
    the input gives the same result, event for event. *)
Theorem blank_lines_are_ignored
    (rt : Runtime) (cl : Client) (lines : list string) (w : World) :
  session_loop rt cl lines w
  = session_loop rt cl (filter (λ line, TrimSpace rt line ≠ "") lines) w.
Proof.
  revert w. induction lines as [|line lines IH]; intros w; [done|].
  rewrite filter_cons. cbn [session_loop].
  destruct (decide (TrimSpace rt line = "")) as [He|Hne].
  - rewrite decide_False by (by intros ?). apply IH.
  - rewrite decide_True by done. cbn [session_loop].
    rewrite decide_False by done.
    destruct (HasPrefix (TrimSpace rt line) "/quit"); [done|].
    rewrite !M_bind_run. apply IH.
Qed.

Lemma clients_dispatch_no_kick rt cl message w :
  HasPrefix message "/kick" = false →
  clients (exec (dispatch rt cl message) w) = clients w.
Proof.
  intros Hk. unfold exec, dispatch. rewrite Hk.
  destruct (HasPrefix message "/list").
  { rewrite M_bind_run, getClientList_run. by case_decide. }
  destruct (HasPrefix message "/time"); [done|].
  apply clients_broadcast.
Qed.




(** ** What a session touches *)








(** ** Joining and the roster *)

(** The handshake of a new connection greets it with the welcome line and
    the nickname prompt and nothing else, registers it, and announces it
    once to every client that was registered before and to nobody else.
    When the scanner delivered a line the registered nickname is never
    empty. *)
Theorem join_notice_reaches_the_others
    (rt : Runtime) (c : Conn) (lines : list string) (w : World) :
  range_valid rt → registry_wf (clients w) →
  let cl := (read_nickname rt c lines).1 in
  ∃ evs,
    handshake rt c lines w
    = (read_nickname rt c lines,
       mkWorld (<[c := cl]> (clients w)) (S (ranges w)) (trace w ++ evs))
    ∧ sent_to c evs = ["Welcome to the Go Socket Server!" +:+ LF;
                       "Please enter your nickname:" +:+ LF]
    ∧ (∀ k, k ≠ c → is_Some (clients w !! k) →
            sent_to k evs = [(nickname cl +:+ " joined the chat") +:+ LF])
    ∧ (∀ k, k ≠ c → clients w !! k = None → sent_to k evs = [])
    ∧ closes evs = []
    ∧ (lines ≠ [] → nickname cl ≠ "").
Proof.
  intros Hv Hwf cl.
  destruct (handshake_run rt c lines w Hv Hwf) as (evs & Hrun & Hcl & Hsent).
  fold cl in Hrun, Hsent. exists evs. split; [done|].
  split; [|split; [|split; [|split; [done|]]]].
  - rewrite Hsent, decide_True by done.
    rewrite (bool_decide_eq_true_2 (c = c)) by done.
    by rewrite andb_false_r.
  - intros k Hk Hin. rewrite Hsent, decide_False by done.
    by rewrite bool_decide_eq_true_2, bool_decide_eq_false_2.
  - intros k Hk Hnone. rewrite Hsent, decide_False by done.
    rewrite bool_decide_eq_false_2; [done|]. rewrite Hnone. by intros [? ?].
  - unfold cl. destruct lines as [|line rest]; [done|]. intros _.
    cbn [read_nickname fst nickname]. by case_decide.
Qed.

(** Carol joins Alice and Bob. *)
Lemma join_notice_reaches_the_others_witness :
  ∃ evs,
    handshake rt0 3 ["Carol"] w_alice_bob
    = (read_nickname rt0 3 ["Carol"],
       mkWorld (<[3 := (read_nickname rt0 3 ["Carol"]).1]> (clients w_alice_bob))
         (S (ranges w_alice_bob)) (trace w_alice_bob ++ evs))
    ∧ sent_to 3 evs = ["Welcome to the Go Socket Server!" +:+ LF;
                       "Please enter your nickname:" +:+ LF]
    ∧ (∀ k, k ≠ 3 → is_Some (clients w_alice_bob !! k) →
            sent_to k evs
            = [(nickname (read_nickname rt0 3 ["Carol"]).1 +:+ " joined the chat") +:+ LF])
    ∧ (∀ k, k ≠ 3 → clients w_alice_bob !! k = None → sent_to k evs = [])
    ∧ closes evs = []
    ∧ (["Carol"] ≠ [] → nickname (read_nickname rt0 3 ["Carol"]).1 ≠ "").
Proof.
  exact (join_notice_reaches_the_others rt0 3 ["Carol"] w_alice_bob
           range_valid_rt0 registry_wf_alice_bob).
Defined.

(** The roster of a registry that is not empty has one line per registered
    client, each client's own, and the count in its header is the number
    of those lines. *)
Theorem roster_lists_every_client (rt : Runtime) (w : World) :
  range_valid rt → size (clients w) ≠ 0 →
  ∃ it,
    it ≡ₚ map_to_list (clients w)
    ∧ eval (getClientList rt) w
      = ("Connected clients (" +:+ Itoa (length (roster_line <$> it.*2)) +:+ "):")
        +:+ join (roster_line <$> it.*2)
    ∧ length (roster_line <$> it.*2) = size (clients w)
    ∧ (∀ k cl, clients w !! k = Some cl → roster_line cl ∈ roster_line <$> it.*2).
Proof.
  intros Hv Hsz.
  exists (range_order rt (ranges w) (map_to_list (clients w))).
  pose proof (Hv (ranges w) (map_to_list (clients w))) as Hp.
  assert (length (roster_line <$>
            (range_order rt (ranges w) (map_to_list (clients w))).*2)
          = size (clients w)) as Hlen.
  { by rewrite !length_fmap, Hp, length_map_to_list. }
  split; [done|]. split; [|split; [done|]].
  - rewrite Hlen. by apply eval_getClientList_visit.
  - intros k cl Hk. apply list_elem_of_fmap. exists cl. split; [done|].
    apply list_elem_of_fmap. exists (k, cl). split; [done|].
    rewrite Hp. by apply elem_of_map_to_list.
Qed.

(** The roster of Alice and Bob. *)
Lemma roster_lists_every_client_witness :
  ∃ it,
    it ≡ₚ map_to_list (clients w_alice_bob)
    ∧ eval (getClientList rt0) w_alice_bob
      = ("Connected clients (" +:+ Itoa (length (roster_line <$> it.*2)) +:+ "):")
        +:+ join (roster_line <$> it.*2)
    ∧ length (roster_line <$> it.*2) = size (clients w_alice_bob)
    ∧ (∀ k cl, clients w_alice_bob !! k = Some cl →
               roster_line cl ∈ roster_line <$> it.*2).
Proof.
  apply (roster_lists_every_client rt0 w_alice_bob range_valid_rt0). by vm_compute.
Defined.

(** ** The client *)

Lemma written_client_main trim werr lines :
  written (client_main trim werr None lines) = written (client_loop trim werr 0 lines).
Proof.
  unfold client_main, written. rewrite !omap_app. cbn [omap list_omap].
  by rewrite app_nil_r.
Qed.

Lemma written_client_loop_prefix trim werr n lines :
  written (client_loop trim werr n lines)
  `prefix_of` (λ m, m +:+ LF) <$> upto_quit (messages trim lines).
Proof.
  revert n. induction lines as [|line lines IH]; intros n; [done|].
  unfold messages in *. rewrite fmap_cons, filter_cons. cbn [client_loop].
  assert (trim line = "" ∨ trim line ≠ "") as [He|Hne]
    by (destruct (decide (trim line = "")); auto).
  - rewrite (decide_False (P := trim line ≠ "")) by (intros H; by apply H).
    rewrite (decide_True (P := trim line = "")) by done. apply IH.
  - rewrite (decide_True (P := trim line ≠ "")) by done.
    rewrite (decide_False (P := trim line = "")) by done.
    cbn [upto_quit]. rewrite fmap_cons.
    change (written (CWrite ?d :: ?tr)) with (d :: written tr).
    apply prefix_cons.
    destruct (werr n); [apply prefix_nil|].
    case_decide; [done|apply IH].
Qed.

Lemma written_client_loop_no_error trim werr n lines :
  (∀ k, werr k = None) →
  written (client_loop trim werr n lines)
  = (λ m, m +:+ LF) <$> upto_quit (messages trim lines).
Proof.
  intros Hok. revert n. induction lines as [|line lines IH]; intros n; [done|].
  unfold messages in *. rewrite fmap_cons, filter_cons. cbn [client_loop].
  assert (trim line = "" ∨ trim line ≠ "") as [He|Hne]
    by (destruct (decide (trim line = "")); auto).
  - rewrite (decide_False (P := trim line ≠ "")) by (intros H; by apply H).
    rewrite (decide_True (P := trim line = "")) by done. apply IH.
  - rewrite (decide_True (P := trim line ≠ "")) by done.
    rewrite (decide_False (P := trim line = "")) by done.
    cbn [upto_quit]. rewrite fmap_cons, Hok.
    change (written (CWrite ?d :: ?tr)) with (d :: written tr).
    f_equal. case_decide; [done|apply IH].
Qed.

Lemma written_client_loop_error trim werr n k err lines :
  werr k = Some err → (n ≤ k)%nat →
  (length (written (client_loop trim werr n lines)) ≤ S k - n)%nat.
Proof.
  intros Hk. revert n. induction lines as [|line lines IH]; intros n Hn.
  { cbn. lia. }
  cbn [client_loop]. case_decide; [by apply IH|].
  change (written (CWrite ?d :: ?tr)) with (d :: written tr). cbn [length].
  destruct (werr n) eqn:Hw; [cbn; lia|].
  assert (n ≠ k) by congruence.
  case_decide; [cbn; lia|].
  specialize (IH (S n)). lia.
Qed.

(** The client writes to the server the lines typed on standard input,
    trimmed and ended by one line feed, skipping those that are empty once
    trimmed, in the order typed.  It stops after the first message that
    is exactly [/quit], which it still sends, and after the first write
    that fails; when no write fails it sends every message up to that
    [/quit].  When the connection cannot be opened it writes nothing. *)
Theorem client_sends_trimmed_messages
    (trim : string → string) (werr : nat → option string) (lines : list string) :
  let sent := written (client_main trim werr None lines) in
  sent `prefix_of` (λ m, m +:+ LF) <$> upto_quit (messages trim lines)
  ∧ ((∀ k, werr k = None) →
     sent = (λ m, m +:+ LF) <$> upto_quit (messages trim lines))
  ∧ (∀ d, d ∈ sent →
          ∃ line, line ∈ lines ∧ trim line ≠ "" ∧ d = trim line +:+ LF)
  ∧ (∀ k err, werr k = Some err → (length sent ≤ S k)%nat)
  ∧ (∀ err, written (client_main trim werr (Some err) lines) = []).
Proof.
  cbv zeta. rewrite written_client_main.
  pose proof (written_client_loop_prefix trim werr 0 lines) as Hpre.
  split; [done|]. split; [apply written_client_loop_no_error|].
  split; [|split; [|done]].
  - intros d Hd. destruct Hpre as [more Hpre].
    assert (d ∈ (λ m, m +:+ LF) <$> upto_quit (messages trim lines)) as Hin.
    { rewrite Hpre. apply elem_of_app. by left. }
    apply list_elem_of_fmap in Hin as (m & -> & Hm).
    assert (m ∈ messages trim lines) as Hmsg.
    { clear -Hm. induction (messages trim lines) as [|m' ms IH]; [done|].
      cbn [upto_quit] in Hm. apply elem_of_cons in Hm as [->|Hm]; [left|].
      right. case_decide; [by apply elem_of_nil in Hm|by apply IH]. }
    unfold messages in Hmsg. apply list_elem_of_filter in Hmsg as [Hne Hmsg].
    apply list_elem_of_fmap in Hmsg as (line & -> & Hline). by exists line.
  - intros k err Hk.
    pose proof (written_client_loop_error trim werr 0 k err lines Hk). lia.
Qed.

Example client_main_examples :
  client_main TrimSpace_ascii (λ _, None) None
    ["  hello "; "   "; "/quit now"; "/quit"; "too late"]
  = [CPrint ("Connected to server!" +:+ LF);
     CPrint ("Commands: /quit (exit), /list (show users), /time (server time)" +:+ LF);
     CPrint ("Just type messages to chat with others" +:+ LF);
     CGoReader;
     CWrite ("hello" +:+ LF); CWrite ("/quit now" +:+ LF); CWrite ("/quit" +:+ LF);
     CPrint ("Disconnected from server" +:+ LF); CClose]
  ∧ written (client_main TrimSpace_ascii
               (λ n, if decide (n = 1) then Some "broken pipe" else None) None
               ["a"; "b"; "c"])
    = ["a" +:+ LF; "b" +:+ LF]
  ∧ client_main TrimSpace_ascii (λ _, None) (Some "connection refused") ["a"]
    = [CPrint ("Failed to connect to server: connection refused" +:+ LF)].
Proof. repeat split. Qed.

(** ** The accept loop *)

Lemma handled_accept_turns accepts :
  handled (flat_map accept_turn accepts) = accepted accepts.
Proof.
  unfold handled, accepted.
  induction accepts as [|[err|c] accepts IH]; [done| |]; cbn; by rewrite IH.
Qed.

(** Once listening, [Start] does not return, whatever [Accept] reports: a
    failed accept is logged and skipped, every accepted connection, before
    or after a failure, gets its handler goroutine, in the order accepted,
    what has been done is never undone by later accepts, and the listener
    is never closed.  When listening fails [Start] accepts nothing and
    returns the cause wrapped in its own message, which [main] prints. *)
Theorem accept_failures_do_not_stop_the_server
    (address : string) (accepts : list (string + Conn)) :
  (Start address None accepts).1 = None
  ∧ handled (Start address None accepts).2 = accepted accepts
  ∧ (ListenerClose ∉ (Start address None accepts).2)
  ∧ (∀ more, (Start address None accepts).2
             `prefix_of` (Start address None (accepts ++ more)).2)
  ∧ (∀ err, Start address (Some err) accepts
            = (Some ("failed to start server: " +:+ err), []))
  ∧ (∀ err, server_main (Some err) accepts
            = [Printed ("Starting Go Socket Server..." +:+ LF);
               Printed ("Server error: " +:+ ("failed to start server: " +:+ err) +:+ LF)])
  ∧ handled (server_main None accepts) = accepted accepts.
Proof.
  split; [done|]. split; [apply handled_accept_turns|].
  split; [|split; [|split; [done|split; [done|]]]].
  - cbn [Start snd]. intros [[=]|H]%elem_of_cons.
    induction accepts as [|[err|c] accepts IH]; [by apply elem_of_nil in H| |];
      cbn in H; by apply elem_of_cons in H as [[=]|H]; apply IH.
  - intros more. cbn [Start snd]. rewrite flat_map_app.
    apply prefix_cons. by apply prefix_app_r.
  - unfold server_main. cbn [Start fst snd]. rewrite app_nil_r.
    apply handled_accept_turns.
Qed.

Example Start_examples :
  (Start ":8080" None [inr 1; inl "too many open files"; inr 2]).2
  = [Printed ("Socket server started on :8080" +:+ LF);
     GoHandleClient 1;
     Printed ("Failed to accept connection: too many open files" +:+ LF);
     GoHandleClient 2]
  ∧ server_main (Some "address already in use") []
    = [Printed ("Starting Go Socket Server..." +:+ LF);
       Printed ("Server error: failed to start server: address already in use" +:+ LF)].
Proof. repeat split. Qed.

(** ** More on kicking *)

(** A client that is registered on a free connection under a nickname
    nobody else carries, and is then kicked by that nickname, is found,
    and the registry is again the map it was before the client was
    added. *)
Theorem add_then_kick_restores_registry (rt : Runtime) (p : Client) (w : World) :
  range_valid rt →
  clients w !! conn p = None →
  unnamed (clients w) (nickname p) →
  eval (kickClient rt (nickname p)) (exec (addClient p) w) = true
  ∧ clients (exec (kickClient rt (nickname p)) (exec (addClient p) w)) = clients w.
Proof.
  intros Hv Hfree Hu. unfold eval, exec. rewrite addClient_run. cbn [snd].
  rewrite kickClient_run. cbn [clients ranges].
  destruct (first_named_registered rt (ranges w) (<[conn p := p]> (clients w))
              (nickname p) (conn p) p Hv) as (v & cv & -> & Hin & Hn);
    [apply lookup_insert_eq|done|].
  cbn [fst snd clients]. split; [done|].
  apply lookup_insert_Some in Hin as [[<- _]|[_ Hin]].
  - by apply delete_insert_id.
  - by apply Hu in Hin.
Qed.

(** Carol is added to Alice and Bob and kicked again. *)
Lemma add_then_kick_restores_registry_witness :
  eval (kickClient rt0 (nickname carol3)) (exec (addClient carol3) w_alice_bob) = true
  ∧ clients (exec (kickClient rt0 (nickname carol3)) (exec (addClient carol3) w_alice_bob))
    = clients w_alice_bob.
Proof.
  apply (add_then_kick_restores_registry rt0 carol3 w_alice_bob range_valid_rt0);
    [done|].
  intros k cl H Hn.
  assert (clients w_alice_bob = <[1 := alice1]> {[2 := bob2]}) as Hm by by vm_compute.
  rewrite Hm in H. apply lookup_insert_Some in H as [[_ <-]|[_ H]]; [done|].
  apply lookup_singleton_Some in H as [_ <-]. done.
Defined.

(** When exactly one registered client carries a nickname, a kick of that
    nickname leaves nobody registered under it; every client with another
    nickname stays registered. *)
Theorem kick_of_unique_name_removes_it
    (rt : Runtime) (K : Client) (N : string) (w : World) :
  range_valid rt → registry_wf (clients w) →
  (∀ k k' cl cl', clients w !! k = Some cl → clients w !! k' = Some cl' →
                  nickname cl = N → nickname cl' = N → k = k') →
  let w' := exec (dispatch rt K ("/kick " +:+ N)) w in
  unnamed (clients w') N
  ∧ (∀ k cl, clients w !! k = Some cl → nickname cl ≠ N → clients w' !! k = Some cl).
Proof.
  intros Hv Hwf Huniq.
  assert (exec (dispatch rt K ("/kick " +:+ N)) w
          = ((kicked ← kickClient rt N;
              if kicked : bool then
                send rt K ("You have kicked " +:+ N);;
                broadcast rt (N +:+ " was kicked by " +:+ nickname K) None
              else mret ()) w).2) as ->.
  { unfold exec.
    change (dispatch rt K ("/kick " +:+ N) w)
      with (handleKickClient rt ("/kick " +:+ N) K w).
    unfold handleKickClient.
    change (SplitN ("/kick " +:+ N) " " 2) with ("/kick" :: SplitN N " " 1).
    by rewrite SplitN_1. }
  pose proof (kick_run rt K N w Hv Hwf) as Hrun. cbv zeta in Hrun.
  destruct (first_named N _) as [[v cv]|] eqn:Hf.
  - destruct Hrun as (Hin & Hn & evs & -> & _). cbn [snd clients]. split.
    + intros k cl Hk Hkn.
      apply lookup_delete_Some in Hk as [Hne Hk].
      apply Hne. by apply (Huniq v k cv cl).
    + intros k cl Hk Hkn. rewrite lookup_delete_ne; [done|].
      intros <-. congruence.
  - rewrite Hrun. cbn [snd clients]. split; [|done].
    intros k cl Hk Hkn.
    destruct (first_named_registered rt (ranges w) (clients w) N k cl Hv Hk Hkn)
      as (v & cv & Hf' & _). congruence.
Qed.

(** Alice kicks Bob. *)
Lemma kick_of_unique_name_removes_it_witness :
  unnamed (clients (exec (dispatch rt0 alice1 ("/kick " +:+ "Bob")) w_alice_bob)) "Bob"
  ∧ (∀ k cl, clients w_alice_bob !! k = Some cl → nickname cl ≠ "Bob" →
             clients (exec (dispatch rt0 alice1 ("/kick " +:+ "Bob")) w_alice_bob) !! k
             = Some cl).
Proof.
  apply (kick_of_unique_name_removes_it rt0 alice1 "Bob" w_alice_bob
           range_valid_rt0 registry_wf_alice_bob).
  assert (clients w_alice_bob = <[1 := alice1]> {[2 := bob2]}) as Hm by by vm_compute.
  intros k k' cl cl'. rewrite Hm.
  intros [[<- <-]|[_ [<- <-]%lookup_singleton_Some]]%lookup_insert_Some
         [[<- <-]|[_ [<- <-]%lookup_singleton_Some]]%lookup_insert_Some; done.
Defined.

Lemma kick_target_empty message :
  kick_target message = Some "" → ∃ cmd, message = cmd +:+ " ".
Proof.
  intros Ht. destruct (has_space message) eqn:Hs.
  - apply has_space_split in Hs as (cmd & arg & -> & Hc).
    unfold kick_target in Ht. rewrite SplitN_at_space in Ht by done.
    injection Ht as ->. by exists cmd.
  - unfold kick_target in Ht. by rewrite SplitN_no_space in Ht.
Qed.

Lemma trim_right_no_trailing_space s cmd : trim_right s ≠ cmd +:+ " ".
Proof.
  revert cmd. induction s as [|a s IH]; intros cmd.
  - by destruct cmd.
  - cbn [trim_right]. destruct (trim_right s) as [|b t] eqn:Ht.
    + destruct (asciiSpace a) eqn:Ha; [by destruct cmd|].
      destruct cmd as [|c [|c' cmd]]; [|done|done].
      intros [= ->]. done.
    + destruct cmd as [|c cmd]; [done|].
      intros [= -> H]. by apply (IH cmd).
Qed.

Lemma dispatch_keeps_empty_nickname rt K message w k cl :
  range_valid rt →
  (∀ cmd, message ≠ cmd +:+ " ") →
  clients w !! k = Some cl → nickname cl = "" →
  clients (exec (dispatch rt K message) w) !! k = Some cl.
Proof.
  intros Hv Hm Hk Hn.
  destruct (HasPrefix message "/kick") eqn:Hp;
    [|by rewrite clients_dispatch_no_kick].
  unfold exec. rewrite dispatch_kick, handleKickClient_target by done.
  destruct (kick_target message) as [N|] eqn:Ht; [|done].
  assert (N ≠ "") as HN.
  { intros ->. apply kick_target_empty in Ht as [cmd ->]. by apply (Hm cmd). }
  rewrite M_bind_run, kickClient_run.
  destruct (first_named N _) as [[v cv]|] eqn:Hf; cbn [fst snd]; [|done].
  rewrite M_bind_run, clients_broadcast. cbn [send snd clients].
  apply first_named_Some in Hf as [Hin Hvn].
  apply (range_order_keys rt (ranges w) (clients w) Hv) in Hin.
  rewrite lookup_delete_ne; [done|]. intros ->. congruence.
Qed.

(** A client registered under the empty nickname, as happens when its
    connection ends before a nickname line, cannot be kicked by any line a
    session receives: trimming leaves no space at the end of a line, so no
    kick command has the empty target. *)
Theorem empty_nickname_is_never_kicked
    (rt : Runtime) (K : Client) (lines : list string) (w : World)
    (k : Conn) (cl : Client) :
  range_valid rt →
  (∀ s cmd, TrimSpace rt s ≠ cmd +:+ " ") →
  clients w !! k = Some cl → nickname cl = "" →
  clients (exec (session_loop rt K lines) w) !! k = Some cl.
Proof.
  intros Hv Htrim. revert w. induction lines as [|line lines IH]; intros w Hk Hn.
  { done. }
  unfold exec in *. cbn [session_loop]. case_decide; [by apply IH|].
  destruct (HasPrefix (TrimSpace rt line) "/quit"); [done|].
  rewrite M_bind_run. apply IH; [|done].
  by apply (dispatch_keeps_empty_nickname rt K (TrimSpace rt line) w k cl Hv (Htrim line)).
Qed.

(** A session joins a server where connection 7 is registered without a
    name, and tries to kick it. *)
Lemma empty_nickname_is_never_kicked_witness :
  clients (exec (session_loop rt0 alice1 ["/kick "; "/kick"; "/kick  "])
             (exec (addClient (mkClient 7 "")) w_alice)) !! 7
  = Some (mkClient 7 "").
Proof.
  apply (empty_nickname_is_never_kicked rt0 alice1 ["/kick "; "/kick"; "/kick  "]
           (exec (addClient (mkClient 7 "")) w_alice) 7 (mkClient 7 "")
           range_valid_rt0); [|done|done].
  intros s cmd. apply trim_right_no_trailing_space.
Defined.
